(** * Theme toggle and feed ordering of the static site

    A shallow embedding of the two theme-toggle scripts of the site
    ([scripts/theme.js] and [theme.js]) over a small model of the browser
    objects they touch: [localStorage], the root element's attributes, the
    [.theme-toggle] element and the [prefers-color-scheme] media query. *)

From stdpp Require Import base option strings gmap list sorting.
From Stdlib Require Import Ascii ZArith Lia.

Local Open Scope string_scope.

(** ** Browser model *)

Module Browser.

(** What an element shows: the scripts assign either [textContent] or
    [innerHTML]; both replace all children of the element. *)
Inductive Content :=
  | TextContent (s : string)
  | InnerHTML (s : string).

(** An element: its content and the event types for which the script has
    registered its listener (one entry per [addEventListener] call). *)
Record Element := mkElement {
  content : Content;
  listeners : list string
}.

(** The part of the browser the scripts read and write.  [toggle] is the
    first element matching [.theme-toggle], if the page has one. *)
Record State := mkState {
  localStorage : gmap string string;
  prefersDark : bool;
  attributes : gmap string string;
  toggle : option Element
}.

(** A reference to an element, as returned by [document.querySelector]. *)
Inductive Ref := ToggleRef.

Inductive JsError := TypeError.

(** Observable writes, in program order. *)
Inductive Effect :=
  | StorageSetItem (k v : string)
  | SetAttribute (k v : string)
  | SetContent (c : Content)
  | AddEventListener (ev : string).

Record Outcome (A : Type) := mkOutcome {
  final : State;
  effects : list Effect;
  completion : JsError + A
}.
Arguments mkOutcome {A}.
Arguments final {A}.
Arguments effects {A}.
Arguments completion {A}.

(** Script fragments: state passing, a log of writes, and exceptions. *)
Definition M (A : Type) : Type := State -> Outcome A.

Definition ret {A} (a : A) : M A :=
  fun s => mkOutcome s [] (inr a).

Definition throw {A} (e : JsError) : M A :=
  fun s => mkOutcome s [] (inl e).

Definition bind {A B} (m : M A) (k : A -> M B) : M B :=
  fun s =>
    let r := m s in
    match completion r with
    | inl e => mkOutcome (final r) (effects r) (inl e)
    | inr a =>
        let r' := k a (final r) in
        mkOutcome (final r') (effects r ++ effects r') (completion r')
    end.

Declare Scope js_scope.
Delimit Scope js_scope with js.
Bind Scope js_scope with M.
Notation "x ← y ; z" := (bind y (fun x => z))
  (at level 20, y at level 100, z at level 200, only parsing) : js_scope.
Notation "y ;; z" := (bind y (fun _ => z))
  (at level 100, z at level 200, only parsing, right associativity) : js_scope.

(** [a || b] on an operand that is a string or [null]: [null] and the empty
    string are falsy. *)
Definition js_or (a : option string) (b : string) : string :=
  match a with
  | Some s => if String.eqb s "" then b else s
  | None => b
  end.

(** [a === lit] for [a] a string or [null]. *)
Definition strict_eq (a : option string) (lit : string) : bool :=
  match a with
  | Some s => String.eqb s lit
  | None => false
  end.

(** [document.querySelector(sel)]: the model tracks one element. *)
Definition querySelector (sel : string) : M (option Ref) :=
  fun s =>
    mkOutcome s []
      (inr (if String.eqb sel ".theme-toggle"
            then match toggle s with Some _ => Some ToggleRef | None => None end
            else None)).

(** [window.matchMedia(q).matches] *)
Definition matchMedia_matches (q : string) : M bool :=
  fun s =>
    mkOutcome s []
      (inr (if String.eqb q "(prefers-color-scheme: dark)"
            then prefersDark s else false)).

Definition getItem (k : string) : M (option string) :=
  fun s => mkOutcome s [] (inr (localStorage s !! k)).

Definition setItem (k v : string) : M unit :=
  fun s =>
    mkOutcome
      (mkState (<[k:=v]> (localStorage s)) (prefersDark s) (attributes s) (toggle s))
      [StorageSetItem k v] (inr tt).

(** [document.documentElement.getAttribute(k)] *)
Definition getAttribute (k : string) : M (option string) :=
  fun s => mkOutcome s [] (inr (attributes s !! k)).

(** [document.documentElement.setAttribute(k, v)] *)
Definition setAttribute (k v : string) : M unit :=
  fun s =>
    mkOutcome
      (mkState (localStorage s) (prefersDark s) (<[k:=v]> (attributes s)) (toggle s))
      [SetAttribute k v] (inr tt).

Definition with_content (c : Content) (e : Element) : Element :=
  mkElement c (listeners e).

Definition with_listener (ev : string) (e : Element) : Element :=
  mkElement (content e) (listeners e ++ [ev]).

(** Assigning a property of [null] throws a TypeError. *)
Definition set_content (r : option Ref) (c : Content) : M unit :=
  match r with
  | None => throw TypeError
  | Some ToggleRef =>
      fun s =>
        mkOutcome
          (mkState (localStorage s) (prefersDark s) (attributes s)
                   (with_content c <$> toggle s))
          [SetContent c] (inr tt)
  end.

Definition set_textContent (r : option Ref) (t : string) : M unit :=
  set_content r (TextContent t).

Definition set_innerHTML (r : option Ref) (h : string) : M unit :=
  set_content r (InnerHTML h).

(** Calling a method of [null] throws a TypeError. *)
Definition addEventListener (r : option Ref) (ev : string) : M unit :=
  match r with
  | None => throw TypeError
  | Some ToggleRef =>
      fun s =>
        mkOutcome
          (mkState (localStorage s) (prefersDark s) (attributes s)
                   (with_listener ev <$> toggle s))
          [AddEventListener ev] (inr tt)
  end.

(** The value of the root element's [data-theme] attribute. *)
Definition data_theme (s : State) : option string :=
  attributes s !! "data-theme".

(** The persisted theme value. *)
Definition stored_theme (s : State) : option string :=
  localStorage s !! "theme".

(** What the toggle element shows, if the page has one. *)
Definition icon (s : State) : option Content :=
  content <$> toggle s.

(** Number of click listeners on the toggle element. *)
Definition click_listeners (s : State) : nat :=
  match toggle s with
  | Some e => length (filter (fun ev => ev = "click") (listeners e))
  | None => 0
  end.

(** A user click on the toggle element runs the script's listener once per
    registration; without the element there is nothing to click. *)
Definition dispatch_click (handler : M unit) (s : State) : State :=
  Nat.iter (click_listeners s) (fun s' => final (handler s')) s.

(** A fresh page load: storage survives, the document is rebuilt. *)
Definition reload (s : State) (os_dark : bool) (attrs : gmap string string)
    (tog : option Element) : State :=
  mkState (localStorage s) os_dark attrs tog.

End Browser.

Import Browser.
Local Open Scope js_scope.

(** ** scripts/theme.js *)

Module ScriptsTheme.

Definition sun : string := "☀️".
Definition moon : string := "🌙".

(** The click listener (lines 14-21). *)
Definition on_click (themeToggle : option Ref) : M unit :=
  attr ← getAttribute "data-theme";
  let newTheme := if strict_eq attr "dark" then "light" else "dark" in
  setAttribute "data-theme" newTheme;;
  setItem "theme" newTheme;;
  set_textContent themeToggle (if String.eqb newTheme "dark" then sun else moon).

(** The script body, run once on page load (lines 2-14). *)
Definition main : M unit :=
  themeToggle ← querySelector ".theme-toggle";
  prefersDarkScheme ← matchMedia_matches "(prefers-color-scheme: dark)";
  stored ← getItem "theme";
  let currentTheme := js_or stored (if prefersDarkScheme then "dark" else "light") in
  setAttribute "data-theme" currentTheme;;
  set_textContent themeToggle (if String.eqb currentTheme "dark" then sun else moon);;
  addEventListener themeToggle "click".

Definition load (s : State) : State := final (main s).

(** The listener as registered: [addEventListener] has succeeded, so the
    [themeToggle] it closes over is the element. *)
Definition listener : M unit := on_click (Some ToggleRef).

Definition handle (s : State) : State := final (listener s).

Definition click (s : State) : State := dispatch_click listener s.

(** A visit: the page loads, then the user clicks the toggle [n] times. *)
Definition session (n : nat) (s : State) : State := Nat.iter n click (load s).

End ScriptsTheme.

(** ** theme.js *)

Module Theme.

(** Markup helpers for the two inline SVG icons. *)
Definition dquote : string := String (ascii_of_nat 34) EmptyString.
Definition newline : string := String (ascii_of_nat 10) EmptyString.

Definition attr (k v : string) : string := k +:+ "=" +:+ dquote +:+ v +:+ dquote.

Definition tag (name : string) (attrs : list string) : string :=
  "<" +:+ String.concat " " (name :: attrs) +:+ ">".

Definition path (d : string) : string := "  " +:+ tag "path" [attr "d" d] +:+ "</path>".

(** The template literal of lines 12-24. *)
Definition sunIcon : string :=
  String.concat newline
    [ "";
      tag "svg" [attr "width" "24"; attr "height" "24"; attr "fill" "white";
                 attr "stroke" "white"; attr "stroke-width" "2";
                 attr "viewBox" "0 0 24 24"; attr "color" "black"];
      "  " +:+ tag "circle" [attr "cx" "12"; attr "cy" "12"; attr "r" "5"] +:+ "</circle>";
      path "M12 1v2";
      path "M12 21v2";
      path "M4.22 4.22l1.42 1.42";
      path "M18.36 18.36l1.42 1.42";
      path "M1 12h2";
      path "M21 12h2";
      path "M4.22 19.78l1.42-1.42";
      path "M18.36 5.64l1.42-1.42";
      "</svg>";
      "" ].

(** The template literal of lines 26-30. *)
Definition moonIcon : string :=
  String.concat newline
    [ "";
      tag "svg" [attr "width" "24"; attr "height" "24"; attr "fill" "#333";
                 attr "stroke" "#333"; attr "stroke-width" "2";
                 attr "viewBox" "0 0 24 24"];
      path "M21 12.79A9 9 0 1 1 11.21 3 7 7 0 0 0 21 12.79z";
      "</svg>";
      "" ].

(** The click listener (lines 35-42). *)
Definition on_click (themeToggle : option Ref) : M unit :=
  attr ← getAttribute "data-theme";
  let newTheme := if strict_eq attr "dark" then "light" else "dark" in
  setAttribute "data-theme" newTheme;;
  setItem "theme" newTheme;;
  set_innerHTML themeToggle (if String.eqb newTheme "dark" then sunIcon else moonIcon).

(** The script body, run once on page load (lines 2-35). *)
Definition main : M unit :=
  themeToggle ← querySelector ".theme-toggle";
  prefersDarkScheme ← matchMedia_matches "(prefers-color-scheme: dark)";
  stored ← getItem "theme";
  let currentTheme := js_or stored (if prefersDarkScheme then "dark" else "light") in
  setAttribute "data-theme" currentTheme;;
  set_innerHTML themeToggle (if String.eqb currentTheme "dark" then sunIcon else moonIcon);;
  addEventListener themeToggle "click".

Definition load (s : State) : State := final (main s).

(** The listener as registered: [addEventListener] has succeeded, so the
    [themeToggle] it closes over is the element. *)
Definition listener : M unit := on_click (Some ToggleRef).

Definition handle (s : State) : State := final (listener s).

Definition click (s : State) : State := dispatch_click listener s.

(** A visit: the page loads, then the user clicks the toggle [n] times. *)
Definition session (n : nat) (s : State) : State := Nat.iter n click (load s).

End Theme.

(** ** RSS feed *)

Module Feed.

Inductive OgType := Article | Website.

(** A page record, as the meta parser yields it: the published timestamp
    is optional. *)
Record Page := mkPage {
  path : string;
  title : string;
  description : string;
  canonical : string;
  og_type : OgType;
  published : option Z
}.

(** An item of the feed. *)
Record Entry := mkEntry {
  entry_title : string;
  entry_link : string;
  entry_description : string;
  entry_pubDate : Z
}.

(** What the generator does with an article that lacks its publish date:
    the specification leaves the choice to the implementer. *)
Inductive MissingPolicy := SkipWithWarning | FailLoudly.

Definition is_article (p : Page) : bool :=
  match og_type p with
  | Article => true
  | Website => false
  end.

Definition entry_of (p : Page) : option Entry :=
  match published p with
  | Some d => Some (mkEntry (title p) (canonical p) (description p) d)
  | None => None
  end.

(** [newer_first a b]: [a] may precede [b] in the feed. *)
Definition newer_first (a b : Entry) : Prop :=
  (entry_pubDate b <= entry_pubDate a)%Z.

#[global] Instance newer_first_dec (a b : Entry) : Decision (newer_first a b) :=
  decide (entry_pubDate b <= entry_pubDate a)%Z.

(** Modelled from the spec: the RSS part of the sitemap/robots/RSS generator
    ([scripts/generate_meta.py]), which is not among the sources.  One entry
    per article-type page, carrying title, link (the canonical URL),
    description and publish date, ordered by published timestamp
    descending; an article without a timestamp is skipped or fails the
    run, as the policy says. *)
Definition rss_feed (policy : MissingPolicy) (pages : list Page)
    : option (list Entry) :=
  let articles := filter (fun p => is_article p = true) pages in
  match policy with
  | SkipWithWarning => Some (merge_sort newer_first (omap entry_of articles))
  | FailLoudly => merge_sort newer_first <$> mapM entry_of articles
  end.

End Feed.

(** ** Vocabulary of the statements *)

(** The theme the OS colour-scheme signal stands for. *)
Definition os_theme (s : State) : string :=
  if prefersDark s then "dark" else "light".

(** An attribute or storage value that is one of the two theme names. *)
Definition is_theme (v : option string) : Prop :=
  v = Some "light" \/ v = Some "dark".

(** The theme both scripts compute on load (line 6 of either file). *)
Definition currentTheme (s : State) : string := js_or (stored_theme s) (os_theme s).

(** The theme both listeners compute (lines 15-17, resp. 36-38). *)
Definition newTheme (s : State) : string :=
  if strict_eq (data_theme s) "dark" then "light" else "dark".

(** The load-time theme as the specification words it: the persisted value
    when one exists, else the OS theme. *)
Definition priority_theme (s : State) : string :=
  match stored_theme s with
  | Some t => t
  | None => os_theme s
  end.

(** The same resolution with the empty string counted as no preference. *)
Definition resolved_theme (s : State) : string :=
  match stored_theme s with
  | Some t => if decide (t = "") then os_theme s else t
  | None => os_theme s
  end.

(** The icon each script shows for a theme: the sun while dark, the moon
    otherwise (lines 11 and 20, resp. 32 and 41). *)
Definition emoji_for (t : string) : Content :=
  TextContent (if decide (t = "dark") then ScriptsTheme.sun else ScriptsTheme.moon).

Definition svg_for (t : string) : Content :=
  InnerHTML (if decide (t = "dark") then Theme.sunIcon else Theme.moonIcon).

(** What the handling of one click by listener [l] achieves: the theme
    flips, attribute, storage and icon are written once each, in that
    order, and the listener returns normally. *)
Definition click_flips (l : M unit) (render : string -> Content) (s : State) : Prop :=
  exists new : string,
    (data_theme s = Some "dark" -> new = "light") /\
    (data_theme s = Some "light" -> new = "dark") /\
    data_theme (final (l s)) = Some new /\
    stored_theme (final (l s)) = Some new /\
    icon (final (l s)) = (fun _ => render new) <$> toggle s /\
    effects (l s) =
      [SetAttribute "data-theme" new; StorageSetItem "theme" new;
       SetContent (render new)] /\
    completion (l s) = inr tt.

(** Storage contents the two-valued reading of the theme allows: no theme
    value, or one of the two names. *)
Definition stored_ok (s : State) : Prop :=
  stored_theme s = None \/ is_theme (stored_theme s).

(** The emoji and the inline SVG that stand for the same icon. *)
Inductive same_icon : Content -> Content -> Prop :=
  | same_sun : same_icon (TextContent ScriptsTheme.sun) (InnerHTML Theme.sunIcon)
  | same_moon : same_icon (TextContent ScriptsTheme.moon) (InnerHTML Theme.moonIcon).

(** Toggle elements that differ at most in the markup of their icon. *)
Definition same_toggle (e e' : Element) : Prop :=
  listeners e = listeners e' /\ same_icon (content e) (content e').

(** States of a page under [scripts/theme.js] and under [theme.js] that
    agree on everything but the icon markup. *)
Definition state_equivalent (a b : State) : Prop :=
  localStorage a = localStorage b /\
  prefersDark a = prefersDark b /\
  attributes a = attributes b /\
  option_Forall2 same_toggle (toggle a) (toggle b).

(** Three pages of the site: two posts and the blog index. *)
Definition sample_pages : list Feed.Page :=
  [ Feed.mkPage "blog/first.html" "First impressions" "An early look"
      "https://example.org/blog/first.html" Feed.Article (Some 1700000000%Z);
    Feed.mkPage "blog/index.html" "Blog" "All posts"
      "https://example.org/blog/" Feed.Website None;
    Feed.mkPage "blog/second.html" "Second thoughts" "A later look"
      "https://example.org/blog/second.html" Feed.Article (Some 1710000000%Z) ].

(** A page as served, before any script has run on it: it has its toggle
    button, and nothing listens to it yet. *)
Definition fresh_page (s : State) : Prop :=
  is_Some (toggle s) /\ click_listeners s = 0.

(** The theme after a number of flips, starting from the value [t0] the
    load applied: any value other than "dark" flips to "dark". *)
Definition theme_after (t0 : string) (clicks : nat) : string :=
  match clicks with
  | 0 => t0
  | S n => if Bool.eqb (String.eqb t0 "dark") (Nat.even n) then "light" else "dark"
  end.

(** The toggle's icon agrees with the data-theme attribute. *)
Definition icon_in_sync (render : string -> Content) (s : State) : Prop :=
  exists t, data_theme s = Some t /\ icon s = (fun _ => render t) <$> toggle s.

(** [s'] differs from [s] at most in the data-theme attribute, the theme
    key of storage and the toggle element. *)
Definition unchanged_elsewhere (s s' : State) : Prop :=
  (forall k, k ≠ "data-theme" -> attributes s' !! k = attributes s !! k) /\
  (forall k, k ≠ "theme" -> localStorage s' !! k = localStorage s !! k) /\
  prefersDark s' = prefersDark s.

(** The [setItem] calls of a log, in order. *)
Definition storage_writes (l : list Effect) : list (string * string) :=
  omap (fun e => match e with StorageSetItem k v => Some (k, v) | _ => None end) l.

(** A page as the browser hands it to the script: nothing persisted, no
    attribute on the root element, a toggle button without listeners. *)
Definition first_visit (os_dark : bool) : State :=
  mkState ∅ os_dark ∅ (Some (mkElement (TextContent "") [])).

(** The same page with a value already persisted under the theme key. *)
Definition return_visit (v : string) (os_dark : bool) : State :=
  mkState {["theme" := v]} os_dark ∅ (Some (mkElement (TextContent "") [])).

(** ** Characterisation of the scripts *)

Lemma string_eqb_eq (a b : string) : String.eqb a b = bool_decide (a = b).
Proof.
  destruct (String.eqb_spec a b); symmetry;
    [by apply bool_decide_eq_true | by apply bool_decide_eq_false].
Qed.

Lemma js_or_spec (a : option string) (b : string) :
  js_or a b = match a with
              | Some t => if decide (t = "") then b else t
              | None => b
              end.
Proof.
  destruct a as [t|]; [|done]. simpl.
  destruct (String.eqb_spec t ""); by case_decide.
Qed.

Lemma js_or_nonempty (t b : string) : t ≠ "" -> js_or (Some t) b = t.
Proof. intros Ht. rewrite js_or_spec. by case_decide. Qed.

Lemma strict_eq_true (a : option string) (lit : string) :
  strict_eq a lit = true <-> a = Some lit.
Proof.
  destruct a as [t|]; simpl; [|done].
  rewrite String.eqb_eq. split; congruence.
Qed.

Lemma strict_eq_false (a : option string) (lit : string) :
  strict_eq a lit = false <-> a ≠ Some lit.
Proof.
  rewrite <- strict_eq_true. destruct (strict_eq a lit); split; congruence.
Qed.

(** Unfold one run of a script fragment down to the browser primitives. *)
Ltac run_script s :=
  let sto := fresh "sto" in
  let os := fresh "os" in
  let attrs := fresh "attrs" in
  let tog := fresh "tog" in
  destruct s as [sto os attrs [tog|]]; reflexivity.

Lemma scripts_main_final (s : State) :
  ScriptsTheme.load s =
    mkState (localStorage s) (prefersDark s)
      (<["data-theme" := currentTheme s]> (attributes s))
      (with_listener "click" <$>
         (with_content
            (TextContent (if String.eqb (currentTheme s) "dark"
                          then ScriptsTheme.sun else ScriptsTheme.moon))
          <$> toggle s)).
Proof.
  run_script s.
Qed.

Lemma scripts_main_effects (s : State) :
  effects (ScriptsTheme.main s) =
    SetAttribute "data-theme" (currentTheme s) ::
    match toggle s with
    | Some _ =>
        [SetContent (TextContent (if String.eqb (currentTheme s) "dark"
                                  then ScriptsTheme.sun else ScriptsTheme.moon));
         AddEventListener "click"]
    | None => []
    end.
Proof.
  run_script s.
Qed.

Lemma scripts_main_completion (s : State) :
  completion (ScriptsTheme.main s) =
    match toggle s with Some _ => inr tt | None => inl TypeError end.
Proof.
  run_script s.
Qed.

Lemma scripts_listener_run (s : State) :
  ScriptsTheme.listener s =
    mkOutcome
      (mkState (<["theme" := newTheme s]> (localStorage s)) (prefersDark s)
         (<["data-theme" := newTheme s]> (attributes s))
         (with_content
            (TextContent (if String.eqb (newTheme s) "dark"
                          then ScriptsTheme.sun else ScriptsTheme.moon))
          <$> toggle s))
      [SetAttribute "data-theme" (newTheme s);
       StorageSetItem "theme" (newTheme s);
       SetContent (TextContent (if String.eqb (newTheme s) "dark"
                                then ScriptsTheme.sun else ScriptsTheme.moon))]
      (inr tt).
Proof.
  run_script s.
Qed.

Lemma theme_main_final (s : State) :
  Theme.load s =
    mkState (localStorage s) (prefersDark s)
      (<["data-theme" := currentTheme s]> (attributes s))
      (with_listener "click" <$>
         (with_content
            (InnerHTML (if String.eqb (currentTheme s) "dark"
                        then Theme.sunIcon else Theme.moonIcon))
          <$> toggle s)).
Proof.
  run_script s.
Qed.

Lemma theme_main_effects (s : State) :
  effects (Theme.main s) =
    SetAttribute "data-theme" (currentTheme s) ::
    match toggle s with
    | Some _ =>
        [SetContent (InnerHTML (if String.eqb (currentTheme s) "dark"
                                then Theme.sunIcon else Theme.moonIcon));
         AddEventListener "click"]
    | None => []
    end.
Proof.
  run_script s.
Qed.

Lemma theme_main_completion (s : State) :
  completion (Theme.main s) =
    match toggle s with Some _ => inr tt | None => inl TypeError end.
Proof.
  run_script s.
Qed.

Lemma theme_listener_run (s : State) :
  Theme.listener s =
    mkOutcome
      (mkState (<["theme" := newTheme s]> (localStorage s)) (prefersDark s)
         (<["data-theme" := newTheme s]> (attributes s))
         (with_content
            (InnerHTML (if String.eqb (newTheme s) "dark"
                        then Theme.sunIcon else Theme.moonIcon))
          <$> toggle s))
      [SetAttribute "data-theme" (newTheme s);
       StorageSetItem "theme" (newTheme s);
       SetContent (InnerHTML (if String.eqb (newTheme s) "dark"
                              then Theme.sunIcon else Theme.moonIcon))]
      (inr tt).
Proof.
  run_script s.
Qed.

(** ** Click dispatch *)

Lemma dispatch_click_once (h : M unit) (s : State) :
  click_listeners s = 1 -> dispatch_click h s = final (h s).
Proof. unfold dispatch_click. by intros ->. Qed.

Lemma dispatch_click_none (h : M unit) (s : State) :
  click_listeners s = 0 -> dispatch_click h s = s.
Proof. unfold dispatch_click. by intros ->. Qed.

Lemma click_listeners_registered (s s' : State) (c : Content) :
  is_Some (toggle s) ->
  toggle s' = with_listener "click" <$> (with_content c <$> toggle s) ->
  click_listeners s' = S (click_listeners s).
Proof.
  intros [e He] Hs'. unfold click_listeners. rewrite Hs', He. simpl.
  rewrite filter_app, length_app. simpl. lia.
Qed.

(** On a page with a toggle element, either script leaves exactly one more
    click listener than it found. *)
Lemma scripts_load_registers (s : State) :
  is_Some (toggle s) ->
  click_listeners (ScriptsTheme.load s) = S (click_listeners s).
Proof.
  intros He. eapply click_listeners_registered; [done|].
  by rewrite scripts_main_final.
Qed.

Lemma theme_load_registers (s : State) :
  is_Some (toggle s) ->
  click_listeners (Theme.load s) = S (click_listeners s).
Proof.
  intros He. eapply click_listeners_registered; [done|].
  by rewrite theme_main_final.
Qed.

(** Without the element the script aborts before registering anything. *)
Lemma scripts_load_no_toggle (s : State) :
  toggle s = None -> click_listeners (ScriptsTheme.load s) = 0.
Proof.
  intros He. rewrite scripts_main_final. unfold click_listeners. simpl.
  by rewrite He.
Qed.

Lemma theme_load_no_toggle (s : State) :
  toggle s = None -> click_listeners (Theme.load s) = 0.
Proof.
  intros He. rewrite theme_main_final. unfold click_listeners. simpl.
  by rewrite He.
Qed.

(** The listener leaves the registrations alone. *)
Lemma scripts_handle_listeners (s : State) :
  click_listeners (ScriptsTheme.handle s) = click_listeners s.
Proof.
  unfold ScriptsTheme.handle. rewrite scripts_listener_run.
  unfold click_listeners. simpl. by destruct (toggle s).
Qed.

Lemma theme_handle_listeners (s : State) :
  click_listeners (Theme.handle s) = click_listeners s.
Proof.
  unfold Theme.handle. rewrite theme_listener_run.
  unfold click_listeners. simpl. by destruct (toggle s).
Qed.

(** ** Projections of one listener run *)

Lemma newTheme_cases (s : State) :
  (data_theme s = Some "dark" /\ newTheme s = "light") \/
  (data_theme s ≠ Some "dark" /\ newTheme s = "dark").
Proof.
  unfold newTheme. destruct (strict_eq (data_theme s) "dark") eqn:E.
  - left. by apply strict_eq_true in E.
  - right. by apply strict_eq_false in E.
Qed.

Lemma newTheme_is_theme (s : State) : is_theme (Some (newTheme s)).
Proof. unfold is_theme. destruct (newTheme_cases s) as [[_ ->]|[_ ->]]; auto. Qed.

Lemma scripts_handle_data_theme (s : State) :
  data_theme (ScriptsTheme.handle s) = Some (newTheme s).
Proof.
  unfold ScriptsTheme.handle, data_theme. rewrite scripts_listener_run.
  apply lookup_insert_eq.
Qed.

Lemma scripts_handle_stored (s : State) :
  stored_theme (ScriptsTheme.handle s) = Some (newTheme s).
Proof.
  unfold ScriptsTheme.handle, stored_theme. rewrite scripts_listener_run.
  apply lookup_insert_eq.
Qed.

Lemma theme_handle_data_theme (s : State) :
  data_theme (Theme.handle s) = Some (newTheme s).
Proof.
  unfold Theme.handle, data_theme. rewrite theme_listener_run.
  apply lookup_insert_eq.
Qed.

Lemma theme_handle_stored (s : State) :
  stored_theme (Theme.handle s) = Some (newTheme s).
Proof.
  unfold Theme.handle, stored_theme. rewrite theme_listener_run.
  apply lookup_insert_eq.
Qed.

Lemma scripts_load_data_theme (s : State) :
  data_theme (ScriptsTheme.load s) = Some (currentTheme s).
Proof. rewrite scripts_main_final. apply lookup_insert_eq. Qed.

Lemma theme_load_data_theme (s : State) :
  data_theme (Theme.load s) = Some (currentTheme s).
Proof. rewrite theme_main_final. apply lookup_insert_eq. Qed.

Lemma scripts_load_storage (s : State) :
  localStorage (ScriptsTheme.load s) = localStorage s.
Proof. by rewrite scripts_main_final. Qed.

Lemma theme_load_storage (s : State) :
  localStorage (Theme.load s) = localStorage s.
Proof. by rewrite theme_main_final. Qed.

(** ** Initial theme *)

Lemma currentTheme_resolved (s : State) : currentTheme s = resolved_theme s.
Proof. unfold currentTheme, resolved_theme. apply js_or_spec. Qed.

(** C1, as stated, fails: with the empty string persisted under the theme
    key and a dark OS signal, both scripts apply "dark", not the persisted
    value. *)
Lemma C1_empty_string_not_used :
  let s := return_visit "" true in
  stored_theme s = Some "" /\
  data_theme (ScriptsTheme.load s) = Some "dark" /\
  data_theme (Theme.load s) = Some "dark" /\
  data_theme (ScriptsTheme.load s) ≠ Some (priority_theme s) /\
  data_theme (Theme.load s) ≠ Some (priority_theme s).
Proof. vm_compute. repeat split; congruence. Qed.

(** C1, amended: on page load both scripts set the data-theme attribute to
    the persisted value when it exists and is not the empty string;
    otherwise to "dark" when the OS signals a dark preference, and to
    "light" when it does not. *)
Theorem C1_initial_theme_priority (s : State) :
  data_theme (ScriptsTheme.load s) = Some (resolved_theme s) /\
  data_theme (Theme.load s) = Some (resolved_theme s).
Proof.
  rewrite scripts_load_data_theme, theme_load_data_theme.
  by rewrite currentTheme_resolved.
Qed.

(** ** One click *)

Lemma if_eqb_decide {A} (t lit : string) (a b : A) :
  (if String.eqb t lit then a else b) = (if decide (t = lit) then a else b).
Proof. destruct (String.eqb_spec t lit); by case_decide. Qed.

Lemma scripts_click_handle (s : State) :
  click_listeners s = 1 -> ScriptsTheme.click s = ScriptsTheme.handle s.
Proof. apply dispatch_click_once. Qed.

Lemma theme_click_handle (s : State) :
  click_listeners s = 1 -> Theme.click s = Theme.handle s.
Proof. apply dispatch_click_once. Qed.

Lemma scripts_click_flips (s : State) :
  click_flips ScriptsTheme.listener emoji_for s.
Proof.
  exists (newTheme s). rewrite scripts_listener_run. unfold emoji_for.
  rewrite <- if_eqb_decide. simpl.
  repeat split.
  - intros H. destruct (newTheme_cases s) as [[_ ?]|[? _]]; done.
  - intros H. destruct (newTheme_cases s) as [[? _]|[_ ?]]; [congruence|done].
  - apply lookup_insert_eq.
  - apply lookup_insert_eq.
  - unfold icon. simpl. by destruct (toggle s).
Qed.

Lemma theme_click_flips (s : State) :
  click_flips Theme.listener svg_for s.
Proof.
  exists (newTheme s). rewrite theme_listener_run. unfold svg_for.
  rewrite <- if_eqb_decide. simpl.
  repeat split.
  - intros H. destruct (newTheme_cases s) as [[_ ?]|[? _]]; done.
  - intros H. destruct (newTheme_cases s) as [[? _]|[_ ?]]; [congruence|done].
  - apply lookup_insert_eq.
  - apply lookup_insert_eq.
  - unfold icon. simpl. by destruct (toggle s).
Qed.

(** C2: in every state, the handling of one click by either script's
    listener flips the theme (dark becomes light, light becomes dark), sets
    the data-theme attribute and the toggle's icon to the new theme and
    persists the new theme under the theme key, in that one run; and a click
    on a toggle carrying the script's single listener is exactly that run. *)
Theorem C2_click_flips_and_persists (s : State) :
  click_flips ScriptsTheme.listener emoji_for s /\
  click_flips Theme.listener svg_for s /\
  (click_listeners s = 1 ->
   ScriptsTheme.click s = final (ScriptsTheme.listener s) /\
   Theme.click s = final (Theme.listener s)).
Proof.
  split; [apply scripts_click_flips|].
  split; [apply theme_click_flips|].
  intros H. split; [by apply scripts_click_handle | by apply theme_click_handle].
Qed.

(** ** Two clicks *)

Lemma newTheme_twice_scripts (s : State) :
  is_theme (data_theme s) -> Some (newTheme (ScriptsTheme.handle s)) = data_theme s.
Proof.
  intros [H|H]; unfold newTheme at 1; rewrite scripts_handle_data_theme;
    unfold newTheme; rewrite H; reflexivity.
Qed.

Lemma newTheme_twice_theme (s : State) :
  is_theme (data_theme s) -> Some (newTheme (Theme.handle s)) = data_theme s.
Proof.
  intros [H|H]; unfold newTheme at 1; rewrite theme_handle_data_theme;
    unfold newTheme; rewrite H; reflexivity.
Qed.

(** C3, as stated, fails: on a first visit with a dark OS signal the scripts
    apply "dark" and persist nothing; after two clicks the attribute is
    "dark" again but the theme key now holds "dark". *)
Lemma C3_two_clicks_leave_a_stored_value :
  let s := ScriptsTheme.load (first_visit true) in
  let s' := Theme.load (first_visit true) in
  data_theme s = Some "dark" /\ stored_theme s = None /\
  stored_theme (ScriptsTheme.click (ScriptsTheme.click s)) = Some "dark" /\
  stored_theme (ScriptsTheme.click (ScriptsTheme.click s)) ≠ stored_theme s /\
  data_theme s' = Some "dark" /\ stored_theme s' = None /\
  stored_theme (Theme.click (Theme.click s')) = Some "dark" /\
  stored_theme (Theme.click (Theme.click s')) ≠ stored_theme s'.
Proof. vm_compute. repeat split; congruence. Qed.

(** C3, amended: from every state whose data-theme attribute is "light" or
    "dark", handling two clicks returns the attribute to its original value
    and leaves the persisted value equal to it; the persisted value is thus
    back at its original only if that value was persisted before.  Two
    clicks on a toggle carrying the script's single listener are two such
    runs. *)
Theorem C3_two_clicks_restore_theme (s : State) :
  is_theme (data_theme s) ->
  data_theme (ScriptsTheme.handle (ScriptsTheme.handle s)) = data_theme s /\
  stored_theme (ScriptsTheme.handle (ScriptsTheme.handle s)) = data_theme s /\
  data_theme (Theme.handle (Theme.handle s)) = data_theme s /\
  stored_theme (Theme.handle (Theme.handle s)) = data_theme s /\
  (click_listeners s = 1 ->
   ScriptsTheme.click (ScriptsTheme.click s) = ScriptsTheme.handle (ScriptsTheme.handle s) /\
   Theme.click (Theme.click s) = Theme.handle (Theme.handle s)).
Proof.
  intros H.
  rewrite scripts_handle_data_theme, scripts_handle_stored.
  rewrite theme_handle_data_theme, theme_handle_stored.
  rewrite newTheme_twice_scripts, newTheme_twice_theme by done.
  repeat (split; [done|]).
  intros Hl. split.
  - rewrite (scripts_click_handle s Hl). apply scripts_click_handle.
    by rewrite scripts_handle_listeners.
  - rewrite (theme_click_handle s Hl). apply theme_click_handle.
    by rewrite theme_handle_listeners.
Qed.

Lemma C3_two_clicks_restore_theme_witness :
  let s := ScriptsTheme.load (return_visit "light" true) in
  is_theme (data_theme s) /\
  data_theme (ScriptsTheme.handle (ScriptsTheme.handle s)) = data_theme s /\
  stored_theme (ScriptsTheme.handle (ScriptsTheme.handle s)) = data_theme s /\
  data_theme (Theme.handle (Theme.handle s)) = data_theme s /\
  stored_theme (Theme.handle (Theme.handle s)) = data_theme s /\
  (click_listeners s = 1 ->
   ScriptsTheme.click (ScriptsTheme.click s) = ScriptsTheme.handle (ScriptsTheme.handle s) /\
   Theme.click (Theme.click s) = Theme.handle (Theme.handle s)).
Proof.
  assert (H : is_theme (data_theme (ScriptsTheme.load (return_visit "light" true))))
    by (left; vm_compute; reflexivity).
  exact (conj H (C3_two_clicks_restore_theme _ H)).
Defined.

(** ** The two-valued invariant *)

Lemma currentTheme_is_theme (s : State) :
  stored_ok s -> is_theme (Some (currentTheme s)).
Proof.
  unfold currentTheme, os_theme, is_theme.
  intros [H|[H|H]]; rewrite H; simpl; [destruct (prefersDark s)|..]; auto.
Qed.

Lemma scripts_handle_ok (s : State) :
  is_theme (data_theme (ScriptsTheme.handle s)) /\ stored_ok (ScriptsTheme.handle s).
Proof.
  unfold stored_ok. rewrite scripts_handle_data_theme, scripts_handle_stored.
  split; [|right]; apply newTheme_is_theme.
Qed.

Lemma theme_handle_ok (s : State) :
  is_theme (data_theme (Theme.handle s)) /\ stored_ok (Theme.handle s).
Proof.
  unfold stored_ok. rewrite theme_handle_data_theme, theme_handle_stored.
  split; [|right]; apply newTheme_is_theme.
Qed.

Lemma dispatch_click_invariant (P : State -> Prop) (h : M unit) (s : State) :
  (forall s', P (final (h s'))) -> P s -> P (dispatch_click h s).
Proof.
  intros Hh Hs. unfold dispatch_click.
  induction (click_listeners s) as [|k IH]; simpl; [done | apply Hh].
Qed.

Lemma scripts_session_ok (n : nat) (s : State) :
  stored_ok s ->
  is_theme (data_theme (ScriptsTheme.session n s)) /\
  stored_ok (ScriptsTheme.session n s).
Proof.
  intros Hs. unfold ScriptsTheme.session. induction n as [|n IH]; simpl.
  - rewrite scripts_load_data_theme. split; [by apply currentTheme_is_theme|].
    unfold stored_ok, stored_theme. by rewrite scripts_load_storage.
  - apply (dispatch_click_invariant
             (fun s' => is_theme (data_theme s') /\ stored_ok s')); [|done].
    apply scripts_handle_ok.
Qed.

Lemma theme_session_ok (n : nat) (s : State) :
  stored_ok s ->
  is_theme (data_theme (Theme.session n s)) /\ stored_ok (Theme.session n s).
Proof.
  intros Hs. unfold Theme.session. induction n as [|n IH]; simpl.
  - rewrite theme_load_data_theme. split; [by apply currentTheme_is_theme|].
    unfold stored_ok, stored_theme. by rewrite theme_load_storage.
  - apply (dispatch_click_invariant
             (fun s' => is_theme (data_theme s') /\ stored_ok s')); [|done].
    apply theme_handle_ok.
Qed.

(** C4, as stated, fails: the initialization applies whatever non-empty
    string it finds under the theme key. *)
Lemma C4_load_applies_any_stored_string :
  let s := return_visit "blue" false in
  data_theme (ScriptsTheme.load s) = Some "blue" /\
  data_theme (Theme.load s) = Some "blue" /\
  ~ is_theme (data_theme (ScriptsTheme.load s)) /\
  ~ is_theme (data_theme (Theme.load s)).
Proof.
  vm_compute. repeat split; try (intros [H|H]; congruence).
Qed.

(** ** Concrete visits *)

Example first_visit_dark_os :
  data_theme (ScriptsTheme.session 0 (first_visit true)) = Some "dark" /\
  icon (ScriptsTheme.session 0 (first_visit true)) = Some (TextContent ScriptsTheme.sun) /\
  icon (Theme.session 0 (first_visit true)) = Some (InnerHTML Theme.sunIcon) /\
  click_listeners (ScriptsTheme.session 0 (first_visit true)) = 1.
Proof. vm_compute. done. Qed.

Example first_visit_one_click :
  data_theme (ScriptsTheme.session 1 (first_visit true)) = Some "light" /\
  stored_theme (ScriptsTheme.session 1 (first_visit true)) = Some "light" /\
  icon (ScriptsTheme.session 1 (first_visit true)) = Some (TextContent ScriptsTheme.moon) /\
  icon (Theme.session 1 (first_visit true)) = Some (InnerHTML Theme.moonIcon).
Proof. vm_compute. done. Qed.

Example page_without_toggle :
  let s := mkState ∅ false ∅ None in
  completion (ScriptsTheme.main s) = inl TypeError /\
  completion (Theme.main s) = inl TypeError /\
  data_theme (ScriptsTheme.session 2 s) = Some "light" /\
  stored_theme (ScriptsTheme.session 2 s) = None.
Proof. vm_compute. done. Qed.

(** ** Writes to storage *)

(** C5: the load-time initialization of either script makes no [setItem]
    call and leaves storage as it found it; the click listener makes exactly
    one, on the theme key, and leaves every other key as it was. *)
Theorem C5_only_click_writes_theme (s : State) :
  (storage_writes (effects (ScriptsTheme.main s)) = [] /\
   localStorage (ScriptsTheme.load s) = localStorage s /\
   storage_writes (effects (Theme.main s)) = [] /\
   localStorage (Theme.load s) = localStorage s) /\
  (exists v,
     storage_writes (effects (ScriptsTheme.listener s)) = [("theme", v)] /\
     localStorage (ScriptsTheme.handle s) = <["theme" := v]> (localStorage s) /\
     storage_writes (effects (Theme.listener s)) = [("theme", v)] /\
     localStorage (Theme.handle s) = <["theme" := v]> (localStorage s)) /\
  (forall k, k ≠ "theme" ->
     localStorage (ScriptsTheme.handle s) !! k = localStorage s !! k /\
     localStorage (Theme.handle s) !! k = localStorage s !! k).
Proof.
  split; [|split].
  - rewrite scripts_main_effects, theme_main_effects.
    rewrite scripts_load_storage, theme_load_storage.
    by destruct (toggle s).
  - exists (newTheme s). unfold ScriptsTheme.handle, Theme.handle.
    by rewrite scripts_listener_run, theme_listener_run.
  - intros k Hk. unfold ScriptsTheme.handle, Theme.handle.
    rewrite scripts_listener_run, theme_listener_run. simpl.
    by rewrite lookup_insert_ne.
Qed.

(** ** Reload *)

Lemma currentTheme_stored (s : State) (t : string) :
  stored_theme s = Some t -> t ≠ "" -> currentTheme s = t.
Proof. unfold currentTheme. intros -> Ht. by apply js_or_nonempty. Qed.

Lemma newTheme_nonempty (s : State) : newTheme s ≠ "".
Proof. destruct (newTheme_cases s) as [[_ ->]|[_ ->]]; done. Qed.

Lemma scripts_load_stored (s : State) :
  stored_theme (ScriptsTheme.load s) = stored_theme s.
Proof. unfold stored_theme. by rewrite scripts_load_storage. Qed.

Lemma theme_load_stored (s : State) :
  stored_theme (Theme.load s) = stored_theme s.
Proof. unfold stored_theme. by rewrite theme_load_storage. Qed.

Lemma stored_theme_reload (s : State) (os_dark : bool)
    (attrs : gmap string string) (tog : option Element) :
  stored_theme (reload s os_dark attrs tog) = stored_theme s.
Proof. reflexivity. Qed.

(** C6: whatever state a click was handled in, loading a fresh page over
    the storage that click left behind applies the theme the click set,
    whatever the OS signal, the attributes and the toggle of the new page. *)
Theorem C6_theme_survives_reload (s : State) (os_dark : bool)
    (attrs : gmap string string) (tog : option Element) :
  data_theme (ScriptsTheme.load (reload (ScriptsTheme.handle s) os_dark attrs tog))
    = data_theme (ScriptsTheme.handle s) /\
  data_theme (Theme.load (reload (Theme.handle s) os_dark attrs tog))
    = data_theme (Theme.handle s) /\
  stored_theme (ScriptsTheme.load (reload (ScriptsTheme.handle s) os_dark attrs tog))
    = stored_theme (ScriptsTheme.handle s) /\
  stored_theme (Theme.load (reload (Theme.handle s) os_dark attrs tog))
    = stored_theme (Theme.handle s).
Proof.
  pose proof (newTheme_nonempty s) as Hne.
  rewrite scripts_load_data_theme, theme_load_data_theme.
  rewrite scripts_load_stored, theme_load_stored, !stored_theme_reload.
  rewrite (currentTheme_stored _ (newTheme s));
    [|by rewrite stored_theme_reload, scripts_handle_stored|done].
  rewrite (currentTheme_stored _ (newTheme s));
    [|by rewrite stored_theme_reload, theme_handle_stored|done].
  by rewrite scripts_handle_data_theme, theme_handle_data_theme.
Qed.

(** ** Unvalidated stored values *)

Lemma scripts_load_icon (s : State) :
  icon (ScriptsTheme.load s) = (fun _ => emoji_for (currentTheme s)) <$> toggle s.
Proof.
  rewrite scripts_main_final. unfold icon, emoji_for. simpl.
  rewrite if_eqb_decide. by destruct (toggle s).
Qed.

Lemma theme_load_icon (s : State) :
  icon (Theme.load s) = (fun _ => svg_for (currentTheme s)) <$> toggle s.
Proof.
  rewrite theme_main_final. unfold icon, svg_for. simpl.
  rewrite if_eqb_decide. by destruct (toggle s).
Qed.

(** C9: the initialization does not validate the persisted value.  A
    non-empty stored string becomes the data-theme attribute verbatim, and
    unless it is exactly "dark" the toggle (when the page has one) shows the
    moon; a stored empty string is skipped and the OS preference decides. *)
Theorem C9_stored_value_not_validated (s : State) (t : string) :
  stored_theme s = Some t ->
  (t ≠ "" ->
     data_theme (ScriptsTheme.load s) = Some t /\
     data_theme (Theme.load s) = Some t /\
     (t ≠ "dark" ->
        icon (ScriptsTheme.load s)
          = (fun _ => TextContent ScriptsTheme.moon) <$> toggle s /\
        icon (Theme.load s)
          = (fun _ => InnerHTML Theme.moonIcon) <$> toggle s)) /\
  (t = "" ->
     data_theme (ScriptsTheme.load s) = Some (os_theme s) /\
     data_theme (Theme.load s) = Some (os_theme s)).
Proof.
  intros Hst. split.
  - intros Ht.
    rewrite scripts_load_data_theme, theme_load_data_theme.
    rewrite scripts_load_icon, theme_load_icon.
    rewrite (currentTheme_stored s t Hst Ht).
    split; [done|]. split; [done|].
    intros Hd. unfold emoji_for, svg_for. by case_decide.
  - intros ->.
    rewrite scripts_load_data_theme, theme_load_data_theme.
    unfold currentTheme. by rewrite Hst.
Qed.

Lemma C9_stored_value_not_validated_witness :
  let s := return_visit "blue" true in
  stored_theme s = Some "blue" /\
  data_theme (ScriptsTheme.load s) = Some "blue" /\
  data_theme (Theme.load s) = Some "blue" /\
  ("blue" ≠ "dark" ->
     icon (ScriptsTheme.load s)
       = (fun _ => TextContent ScriptsTheme.moon) <$> toggle s /\
     icon (Theme.load s)
       = (fun _ => InnerHTML Theme.moonIcon) <$> toggle s).
Proof.
  assert (H : stored_theme (return_visit "blue" true) = Some "blue")
    by (vm_compute; reflexivity).
  assert (Hne : "blue" ≠ "") by discriminate.
  exact (conj H (proj1 (C9_stored_value_not_validated _ "blue" H) Hne)).
Defined.

(** ** Normalisation by a click *)

(** C10: whatever the data-theme attribute held before, also a string that
    is no theme name or nothing at all, after one handled click the
    attribute and the persisted value are both "light" or "dark"; from
    every value other than "dark" both become "dark".  A click on a toggle
    carrying the script's single listener is one such run. *)
Theorem C10_click_normalises (s : State) :
  (is_theme (data_theme (ScriptsTheme.handle s)) /\
   is_theme (stored_theme (ScriptsTheme.handle s)) /\
   is_theme (data_theme (Theme.handle s)) /\
   is_theme (stored_theme (Theme.handle s))) /\
  (data_theme s ≠ Some "dark" ->
   data_theme (ScriptsTheme.handle s) = Some "dark" /\
   stored_theme (ScriptsTheme.handle s) = Some "dark" /\
   data_theme (Theme.handle s) = Some "dark" /\
   stored_theme (Theme.handle s) = Some "dark") /\
  (click_listeners s = 1 ->
   ScriptsTheme.click s = ScriptsTheme.handle s /\ Theme.click s = Theme.handle s).
Proof.
  rewrite scripts_handle_data_theme, scripts_handle_stored.
  rewrite theme_handle_data_theme, theme_handle_stored.
  split; [|split].
  - pose proof (newTheme_is_theme s). done.
  - intros H. destruct (newTheme_cases s) as [[? _]|[_ ->]]; done.
  - intros Hl. split; [by apply scripts_click_handle | by apply theme_click_handle].
Qed.

Example click_from_unknown_theme :
  let s := ScriptsTheme.load (return_visit "blue" false) in
  data_theme s = Some "blue" /\
  data_theme (ScriptsTheme.click s) = Some "dark" /\
  stored_theme (ScriptsTheme.click s) = Some "dark" /\
  data_theme (ScriptsTheme.click (ScriptsTheme.click s)) = Some "light".
Proof. vm_compute. done. Qed.

Example click_without_attribute :
  let s := mkState ∅ false ∅ (Some (mkElement (TextContent "") ["click"])) in
  data_theme s = None /\
  data_theme (Theme.click s) = Some "dark" /\
  stored_theme (Theme.click s) = Some "dark".
Proof. vm_compute. done. Qed.

(** ** Equivalence of the two scripts *)

Lemma same_icon_for (t : string) : same_icon (emoji_for t) (svg_for t).
Proof. unfold emoji_for, svg_for. case_decide; constructor. Qed.

Lemma same_icon_eqb (t : string) :
  same_icon
    (TextContent (if String.eqb t "dark" then ScriptsTheme.sun else ScriptsTheme.moon))
    (InnerHTML (if String.eqb t "dark" then Theme.sunIcon else Theme.moonIcon)).
Proof. rewrite !if_eqb_decide. apply same_icon_for. Qed.

Lemma same_icon_differ (c c' : Content) : same_icon c c' -> c ≠ c'.
Proof. by intros []. Qed.

Lemma state_equivalent_listeners (a b : State) :
  state_equivalent a b -> click_listeners a = click_listeners b.
Proof.
  intros (_ & _ & _ & Ht). unfold click_listeners.
  destruct Ht as [e e' [Hl _]|]; [by rewrite Hl | done].
Qed.

Lemma load_equivalent (s : State) :
  state_equivalent (ScriptsTheme.load s) (Theme.load s).
Proof.
  rewrite scripts_main_final, theme_main_final.
  repeat split. simpl.
  destruct (toggle s) as [e|]; constructor.
  split; [done | apply same_icon_eqb].
Qed.

Lemma handle_equivalent (a b : State) :
  state_equivalent a b ->
  state_equivalent (ScriptsTheme.handle a) (Theme.handle b).
Proof.
  intros (Hs & Ho & Ha & Ht).
  unfold ScriptsTheme.handle, Theme.handle.
  rewrite scripts_listener_run, theme_listener_run.
  assert (Hn : newTheme a = newTheme b) by (unfold newTheme, data_theme; by rewrite Ha).
  rewrite <- Hn. repeat split; simpl; try congruence.
  destruct Ht as [e e' [Hl _]|]; constructor.
  split; [done | apply same_icon_eqb].
Qed.

Lemma iter_handle_equivalent (k : nat) (a b : State) :
  state_equivalent a b ->
  state_equivalent
    (Nat.iter k (fun s' => final (ScriptsTheme.listener s')) a)
    (Nat.iter k (fun s' => final (Theme.listener s')) b).
Proof.
  intros H. induction k as [|k IH]; simpl; [done|].
  by apply handle_equivalent.
Qed.

Lemma click_equivalent (a b : State) :
  state_equivalent a b ->
  state_equivalent (ScriptsTheme.click a) (Theme.click b).
Proof.
  intros H. unfold ScriptsTheme.click, Theme.click, dispatch_click.
  rewrite <- (state_equivalent_listeners a b H).
  by apply iter_handle_equivalent.
Qed.

Lemma session_equivalent (n : nat) (s : State) :
  state_equivalent (ScriptsTheme.session n s) (Theme.session n s).
Proof.
  unfold ScriptsTheme.session, Theme.session.
  induction n as [|n IH]; simpl; [apply load_equivalent|].
  by apply click_equivalent.
Qed.

(** C8: started on the same page, with any storage content and OS signal,
    and taken through the same number of toggle clicks, [scripts/theme.js]
    and [theme.js] end with the same data-theme attribute and the same
    storage, in particular the same persisted theme; they complete the load
    alike, and their states differ only in the toggle's icon markup, an
    emoji text in one and the corresponding inline SVG in the other. *)
Theorem C8_scripts_state_equivalent (s : State) (n : nat) :
  data_theme (ScriptsTheme.session n s) = data_theme (Theme.session n s) /\
  stored_theme (ScriptsTheme.session n s) = stored_theme (Theme.session n s) /\
  completion (ScriptsTheme.main s) = completion (Theme.main s) /\
  state_equivalent (ScriptsTheme.session n s) (Theme.session n s) /\
  option_Forall2 same_icon
    (icon (ScriptsTheme.session n s)) (icon (Theme.session n s)).
Proof.
  pose proof (session_equivalent n s) as H.
  destruct H as (Hs & Ho & Ha & Ht).
  split; [unfold data_theme; by rewrite Ha|].
  split; [unfold stored_theme; by rewrite Hs|].
  split; [by rewrite scripts_main_completion, theme_main_completion|].
  split; [done|].
  unfold icon. destruct Ht as [e e' [_ Hi]|]; by constructor.
Qed.

(** ** Feed order *)

Section FeedOrder.

Import Feed.

#[local] Instance newer_first_total : Total newer_first.
Proof. intros a b. unfold newer_first. lia. Qed.

#[local] Instance newer_first_trans : Transitive newer_first.
Proof. intros a b c. unfold newer_first. lia. Qed.

Lemma mapM_all_some {A B} (f : A -> option B) (l : list A) :
  Forall (fun x => is_Some (f x)) l -> mapM f l = Some (omap f l).
Proof.
  induction 1 as [|x l [y Hy] _ IH]; simpl; [done|].
  rewrite Hy. simpl. rewrite IH. done.
Qed.

Lemma omap_length_all_some {A B} (f : A -> option B) (l : list A) :
  Forall (fun x => is_Some (f x)) l -> length (omap f l) = length l.
Proof.
  induction 1 as [|x l [y Hy] _ IH]; simpl; [done|].
  rewrite Hy. simpl. f_equal. exact IH.
Qed.

Lemma entry_dates (l : list Page) :
  Forall (fun p => is_Some (entry_of p)) l ->
  Some <$> (entry_pubDate <$> omap entry_of l) = published <$> l.
Proof.
  induction 1 as [|p l [e He] _ IH]; csimpl; [done|].
  rewrite He. csimpl. rewrite IH. f_equal.
  unfold entry_of in He. destruct (published p); by simplify_eq.
Qed.

Lemma strictly_sorted (l : list Entry) :
  StronglySorted newer_first l ->
  NoDup (entry_pubDate <$> l) ->
  StronglySorted (fun a b => (entry_pubDate b < entry_pubDate a)%Z) l.
Proof.
  induction 1 as [|a l Hl IH Ha]; intros Hnd; [constructor|].
  simpl in Hnd. apply NoDup_cons in Hnd as [Hnotin Hnd].
  constructor; [by apply IH|].
  apply Forall_forall. intros b Hb.
  rewrite Forall_forall in Ha. specialize (Ha b Hb). unfold newer_first in Ha.
  assert (entry_pubDate b ≠ entry_pubDate a).
  { intros Heq. apply Hnotin. rewrite <- Heq. by apply list_elem_of_fmap_2. }
  lia.
Qed.

Example sample_feed :
  rss_feed FailLoudly sample_pages =
    Some [ mkEntry "Second thoughts" "https://example.org/blog/second.html"
             "A later look" 1710000000;
           mkEntry "First impressions" "https://example.org/blog/first.html"
             "An early look" 1700000000 ] /\
  rss_feed SkipWithWarning sample_pages = rss_feed FailLoudly sample_pages.
Proof. vm_compute. done. Qed.

(** C7: for every set of pages whose article-type pages all carry a publish
    date and carry pairwise distinct ones, the generator produces a feed,
    under either policy for missing dates; the feed has one entry per
    article-type page, each carrying that page's title, link, description
    and publish date, and its entries are in strictly descending order of
    publish date. *)
Theorem C7_rss_feed_strictly_descending (policy : MissingPolicy) (pages : list Page) :
  Forall (fun p => is_Some (published p))
         (filter (fun p => is_article p = true) pages) ->
  NoDup (published <$> filter (fun p => is_article p = true) pages) ->
  exists feed : list Entry,
    rss_feed policy pages = Some feed /\
    length feed = length (filter (fun p => is_article p = true) pages) /\
    (forall p d, p ∈ pages -> og_type p = Article -> published p = Some d ->
       mkEntry (title p) (canonical p) (description p) d ∈ feed) /\
    (forall e, e ∈ feed ->
       exists p, p ∈ pages /\ og_type p = Article /\
         e = mkEntry (title p) (canonical p) (description p) (entry_pubDate e) /\
         published p = Some (entry_pubDate e)) /\
    StronglySorted (fun a b => (entry_pubDate b < entry_pubDate a)%Z) feed.
Proof.
  set (articles := filter (fun p => is_article p = true) pages).
  intros Hdates Hdistinct.
  assert (Hsome : Forall (fun p => is_Some (entry_of p)) articles).
  { eapply Forall_impl; [exact Hdates|]. intros p [d Hd].
    unfold entry_of. rewrite Hd. by eexists. }
  exists (merge_sort newer_first (omap entry_of articles)).
  assert (Hperm : merge_sort newer_first (omap entry_of articles)
                    ≡ₚ omap entry_of articles) by apply merge_sort_Permutation.
  split; [|split; [|split; [|split]]].
  - unfold rss_feed. fold articles. destruct policy; [done|].
    by rewrite (mapM_all_some _ _ Hsome).
  - rewrite Hperm. by apply omap_length_all_some.
  - intros p d Hp Hart Hd. rewrite Hperm. apply list_elem_of_omap.
    exists p. split.
    + apply list_elem_of_filter. split; [|done]. unfold is_article. by rewrite Hart.
    + unfold entry_of. by rewrite Hd.
  - intros e He. rewrite Hperm in He. apply list_elem_of_omap in He as (p & Hp & He).
    apply list_elem_of_filter in Hp as [Hart Hp].
    exists p. split; [done|]. unfold is_article in Hart.
    split; [by destruct (og_type p)|].
    unfold entry_of in He. destruct (published p) as [d|]; [|done].
    by simplify_eq.
  - apply strictly_sorted; [apply StronglySorted_merge_sort; apply _|].
    rewrite Hperm. apply (NoDup_fmap_1 Some).
    by rewrite entry_dates.
Qed.

Lemma C7_rss_feed_strictly_descending_witness :
  Forall (fun p => is_Some (published p))
         (filter (fun p => is_article p = true) sample_pages) /\
  NoDup (published <$> filter (fun p => is_article p = true) sample_pages) /\
  exists feed : list Entry,
    rss_feed FailLoudly sample_pages = Some feed /\
    length feed = length (filter (fun p => is_article p = true) sample_pages) /\
    (forall p d, p ∈ sample_pages -> og_type p = Article -> published p = Some d ->
       mkEntry (title p) (canonical p) (description p) d ∈ feed) /\
    (forall e, e ∈ feed ->
       exists p, p ∈ sample_pages /\ og_type p = Article /\
         e = mkEntry (title p) (canonical p) (description p) (entry_pubDate e) /\
         published p = Some (entry_pubDate e)) /\
    StronglySorted (fun a b => (entry_pubDate b < entry_pubDate a)%Z) feed.
Proof.
  assert (H1 : Forall (fun p => is_Some (published p))
                 (filter (fun p => is_article p = true) sample_pages)).
  { vm_compute. repeat constructor; by eexists. }
  assert (H2 : NoDup (published <$>
                        filter (fun p => is_article p = true) sample_pages)).
  { vm_compute. apply NoDup_cons. split; [by intros ?%list_elem_of_singleton|].
    apply NoDup_singleton. }
  exact (conj H1 (conj H2
           (C7_rss_feed_strictly_descending FailLoudly sample_pages H1 H2))).
Defined.

End FeedOrder.

(** ** Whole visits *)

Lemma dispatch_click_preserves (P : State -> Prop) (h : M unit) (s : State) :
  (forall s', P s' -> P (final (h s'))) -> P s -> P (dispatch_click h s).
Proof.
  intros Hh Hs. unfold dispatch_click.
  induction (click_listeners s) as [|k IH]; simpl; [done | by apply Hh].
Qed.

Lemma scripts_session_no_toggle (n : nat) (s : State) :
  toggle s = None -> ScriptsTheme.session n s = ScriptsTheme.load s.
Proof.
  intros Ht. unfold ScriptsTheme.session. induction n as [|n IH]; simpl; [done|].
  rewrite IH. apply dispatch_click_none. by apply scripts_load_no_toggle.
Qed.

Lemma theme_session_no_toggle (n : nat) (s : State) :
  toggle s = None -> Theme.session n s = Theme.load s.
Proof.
  intros Ht. unfold Theme.session. induction n as [|n IH]; simpl; [done|].
  rewrite IH. apply dispatch_click_none. by apply theme_load_no_toggle.
Qed.

(** X1: on a page without a [.theme-toggle] element either script still
    sets the data-theme attribute, then aborts with a TypeError: that one
    attribute write is its only effect, storage is untouched, no listener is
    registered, and no later click changes anything. *)
Theorem X1_page_without_toggle (s : State) (n : nat) :
  toggle s = None ->
  completion (ScriptsTheme.main s) = inl TypeError /\
  completion (Theme.main s) = inl TypeError /\
  effects (ScriptsTheme.main s) = [SetAttribute "data-theme" (resolved_theme s)] /\
  effects (Theme.main s) = [SetAttribute "data-theme" (resolved_theme s)] /\
  ScriptsTheme.load s =
    mkState (localStorage s) (prefersDark s)
      (<["data-theme" := resolved_theme s]> (attributes s)) None /\
  Theme.load s = ScriptsTheme.load s /\
  ScriptsTheme.session n s = ScriptsTheme.load s /\
  Theme.session n s = Theme.load s.
Proof.
  intros Ht.
  rewrite scripts_main_completion, theme_main_completion.
  rewrite scripts_main_effects, theme_main_effects.
  rewrite scripts_session_no_toggle, theme_session_no_toggle by done.
  rewrite scripts_main_final, theme_main_final.
  rewrite Ht, currentTheme_resolved. done.
Qed.

Lemma X1_page_without_toggle_witness :
  let s := mkState {["theme" := "light"]} true ∅ None in
  toggle s = None /\
  completion (ScriptsTheme.main s) = inl TypeError /\
  completion (Theme.main s) = inl TypeError /\
  effects (ScriptsTheme.main s) = [SetAttribute "data-theme" (resolved_theme s)] /\
  effects (Theme.main s) = [SetAttribute "data-theme" (resolved_theme s)] /\
  ScriptsTheme.load s =
    mkState (localStorage s) (prefersDark s)
      (<["data-theme" := resolved_theme s]> (attributes s)) None /\
  Theme.load s = ScriptsTheme.load s /\
  ScriptsTheme.session 2 s = ScriptsTheme.load s /\
  Theme.session 2 s = Theme.load s.
Proof.
  exact (conj eq_refl
           (X1_page_without_toggle
              (mkState {["theme" := "light"]} true ∅ None) 2 eq_refl)).
Defined.

Lemma scripts_session_listeners (n : nat) (s : State) :
  fresh_page s -> click_listeners (ScriptsTheme.session n s) = 1.
Proof.
  intros [Ht Hl]. unfold ScriptsTheme.session. induction n as [|n IH]; simpl.
  - by rewrite scripts_load_registers, Hl.
  - rewrite scripts_click_handle by done. by rewrite scripts_handle_listeners.
Qed.

Lemma theme_session_listeners (n : nat) (s : State) :
  fresh_page s -> click_listeners (Theme.session n s) = 1.
Proof.
  intros [Ht Hl]. unfold Theme.session. induction n as [|n IH]; simpl.
  - by rewrite theme_load_registers, Hl.
  - rewrite theme_click_handle by done. by rewrite theme_handle_listeners.
Qed.

Lemma scripts_session_step (n : nat) (s : State) :
  fresh_page s ->
  ScriptsTheme.session (S n) s = ScriptsTheme.handle (ScriptsTheme.session n s).
Proof.
  intros Hs. change (ScriptsTheme.session (S n) s)
    with (ScriptsTheme.click (ScriptsTheme.session n s)).
  apply scripts_click_handle. by apply scripts_session_listeners.
Qed.

Lemma theme_session_step (n : nat) (s : State) :
  fresh_page s ->
  Theme.session (S n) s = Theme.handle (Theme.session n s).
Proof.
  intros Hs. change (Theme.session (S n) s)
    with (Theme.click (Theme.session n s)).
  apply theme_click_handle. by apply theme_session_listeners.
Qed.

(** X2: on a page that has its toggle and no listener on it yet, either
    script runs to completion and registers exactly one click listener,
    which stays the only one; every click of the visit is then exactly one
    run of that listener. *)
Theorem X2_one_listener_per_visit (s : State) (n : nat) :
  fresh_page s ->
  completion (ScriptsTheme.main s) = inr tt /\
  completion (Theme.main s) = inr tt /\
  click_listeners (ScriptsTheme.session n s) = 1 /\
  click_listeners (Theme.session n s) = 1 /\
  ScriptsTheme.session (S n) s = ScriptsTheme.handle (ScriptsTheme.session n s) /\
  Theme.session (S n) s = Theme.handle (Theme.session n s).
Proof.
  intros Hs.
  rewrite scripts_main_completion, theme_main_completion.
  rewrite scripts_session_listeners, theme_session_listeners by done.
  rewrite scripts_session_step, theme_session_step by done.
  destruct Hs as [[e ->] _]. done.
Qed.

Lemma X2_one_listener_per_visit_witness :
  let s := first_visit false in
  fresh_page s /\
  completion (ScriptsTheme.main s) = inr tt /\
  completion (Theme.main s) = inr tt /\
  click_listeners (ScriptsTheme.session 2 s) = 1 /\
  click_listeners (Theme.session 2 s) = 1 /\
  ScriptsTheme.session 3 s = ScriptsTheme.handle (ScriptsTheme.session 2 s) /\
  Theme.session 3 s = Theme.handle (Theme.session 2 s).
Proof.
  assert (H : fresh_page (first_visit false)) by (split; [by eexists | reflexivity]).
  exact (conj H (X2_one_listener_per_visit (first_visit false) 2 H)).
Defined.

Lemma newTheme_of_data_theme (s : State) (t : string) :
  data_theme s = Some t ->
  newTheme s = if String.eqb t "dark" then "light" else "dark".
Proof. unfold newTheme. by intros ->. Qed.

Lemma theme_after_step (t0 : string) (n : nat) :
  (if String.eqb (theme_after t0 n) "dark" then "light" else "dark")
  = theme_after t0 (S n).
Proof.
  destruct n as [|n].
  - simpl. by destruct (String.eqb t0 "dark").
  - cbn [theme_after]. rewrite Nat.even_succ, <- Nat.negb_even.
    destruct (String.eqb t0 "dark"), (Nat.even n); reflexivity.
Qed.

Lemma scripts_session_theme (n : nat) (s : State) :
  fresh_page s ->
  data_theme (ScriptsTheme.session n s) = Some (theme_after (resolved_theme s) n).
Proof.
  intros Hs. induction n as [|n IH].
  - unfold ScriptsTheme.session. simpl.
    by rewrite scripts_load_data_theme, currentTheme_resolved.
  - rewrite scripts_session_step by done. rewrite scripts_handle_data_theme.
    rewrite (newTheme_of_data_theme _ _ IH). by rewrite theme_after_step.
Qed.

Lemma theme_session_theme (n : nat) (s : State) :
  fresh_page s ->
  data_theme (Theme.session n s) = Some (theme_after (resolved_theme s) n).
Proof.
  intros Hs. induction n as [|n IH].
  - unfold Theme.session. simpl.
    by rewrite theme_load_data_theme, currentTheme_resolved.
  - rewrite theme_session_step by done. rewrite theme_handle_data_theme.
    rewrite (newTheme_of_data_theme _ _ IH). by rewrite theme_after_step.
Qed.

(** X3: on a page with its toggle, the theme after [n] clicks is a function
    of the theme the load applied and of the parity of [n] alone: the load's
    theme for no click; after that, starting from "dark", "light" after an
    odd and "dark" after an even number of clicks, and starting from any
    other value the reverse.  From the first click on the persisted value is
    the same as the attribute. *)
Theorem X3_theme_after_n_clicks (s : State) (n : nat) :
  fresh_page s ->
  data_theme (ScriptsTheme.session n s) = Some (theme_after (resolved_theme s) n) /\
  data_theme (Theme.session n s) = Some (theme_after (resolved_theme s) n) /\
  stored_theme (ScriptsTheme.session (S n) s)
    = Some (theme_after (resolved_theme s) (S n)) /\
  stored_theme (Theme.session (S n) s)
    = Some (theme_after (resolved_theme s) (S n)).
Proof.
  intros Hs.
  split; [by apply scripts_session_theme|].
  split; [by apply theme_session_theme|].
  rewrite scripts_session_step, theme_session_step by done.
  rewrite scripts_handle_stored, theme_handle_stored.
  rewrite <- scripts_handle_data_theme, <- theme_handle_data_theme.
  rewrite <- scripts_session_step, <- theme_session_step by done.
  split; [by apply scripts_session_theme | by apply theme_session_theme].
Qed.

Lemma X3_theme_after_n_clicks_witness :
  let s := return_visit "blue" true in
  fresh_page s /\
  data_theme (ScriptsTheme.session 3 s) = Some (theme_after (resolved_theme s) 3) /\
  data_theme (Theme.session 3 s) = Some (theme_after (resolved_theme s) 3) /\
  stored_theme (ScriptsTheme.session 4 s) = Some (theme_after (resolved_theme s) 4) /\
  stored_theme (Theme.session 4 s) = Some (theme_after (resolved_theme s) 4).
Proof.
  assert (H : fresh_page (return_visit "blue" true))
    by (split; [by eexists | reflexivity]).
  exact (conj H (X3_theme_after_n_clicks (return_visit "blue" true) 3 H)).
Defined.

Example theme_after_values :
  theme_after "dark" 0 = "dark" /\ theme_after "dark" 1 = "light" /\
  theme_after "dark" 2 = "dark" /\ theme_after "light" 1 = "dark" /\
  theme_after "light" 2 = "light" /\ theme_after "blue" 0 = "blue" /\
  theme_after "blue" 1 = "dark" /\ theme_after "blue" 2 = "light" /\
  theme_after "blue" 3 = "dark".
Proof. vm_compute. done. Qed.

(** ** The two-valued invariant, per operation *)

Lemma resolved_is_theme (s : State) :
  is_theme (Some (resolved_theme s)) <->
  stored_theme s = None \/ stored_theme s = Some "" \/ is_theme (stored_theme s).
Proof.
  unfold resolved_theme, os_theme, is_theme.
  destruct (stored_theme s) as [t|].
  - case_decide as Ht.
    + subst t. split; [auto|]. intros _. destruct (prefersDark s); auto.
    + split; [auto|]. intros [?|[?|?]]; [done|congruence|done].
  - split; [auto|]. intros _. destruct (prefersDark s); auto.
Qed.

Lemma scripts_load_is_theme (s : State) :
  is_theme (data_theme (ScriptsTheme.load s)) <->
  stored_theme s = None \/ stored_theme s = Some "" \/ is_theme (stored_theme s).
Proof.
  rewrite scripts_load_data_theme, currentTheme_resolved. apply resolved_is_theme.
Qed.

Lemma theme_load_is_theme (s : State) :
  is_theme (data_theme (Theme.load s)) <->
  stored_theme s = None \/ stored_theme s = Some "" \/ is_theme (stored_theme s).
Proof.
  rewrite theme_load_data_theme, currentTheme_resolved. apply resolved_is_theme.
Qed.

Lemma scripts_handle_is_theme (s : State) :
  is_theme (data_theme (ScriptsTheme.handle s)) /\
  is_theme (stored_theme (ScriptsTheme.handle s)).
Proof.
  rewrite scripts_handle_data_theme, scripts_handle_stored.
  split; apply newTheme_is_theme.
Qed.

Lemma theme_handle_is_theme (s : State) :
  is_theme (data_theme (Theme.handle s)) /\
  is_theme (stored_theme (Theme.handle s)).
Proof.
  rewrite theme_handle_data_theme, theme_handle_stored.
  split; apply newTheme_is_theme.
Qed.

(** C4, amended: after every toggle click, for every possible prior
    content of storage, the data-theme attribute and the persisted theme
    value are each "light" or "dark": so for one run of the listener in any
    state, and so after each click of a visit to a page with its toggle.
    After the load-time initialization the data-theme attribute is "light"
    or "dark" exactly when storage held no theme value, the empty string,
    "light" or "dark", and the persisted theme value is what storage held
    before; hence, with no theme value, "light" or "dark" in storage at load,
    the attribute and any persisted value are "light" or "dark" after the
    load and after every click. *)
Theorem C4_two_valued_invariant (s : State) (n : nat) :
  (is_theme (data_theme (ScriptsTheme.handle s)) /\
   is_theme (stored_theme (ScriptsTheme.handle s)) /\
   is_theme (data_theme (Theme.handle s)) /\
   is_theme (stored_theme (Theme.handle s))) /\
  (fresh_page s ->
   is_theme (data_theme (ScriptsTheme.session (S n) s)) /\
   is_theme (stored_theme (ScriptsTheme.session (S n) s)) /\
   is_theme (data_theme (Theme.session (S n) s)) /\
   is_theme (stored_theme (Theme.session (S n) s))) /\
  ((is_theme (data_theme (ScriptsTheme.load s)) <->
      stored_theme s = None \/ stored_theme s = Some "" \/ is_theme (stored_theme s)) /\
   (is_theme (data_theme (Theme.load s)) <->
      stored_theme s = None \/ stored_theme s = Some "" \/ is_theme (stored_theme s)) /\
   stored_theme (ScriptsTheme.load s) = stored_theme s /\
   stored_theme (Theme.load s) = stored_theme s) /\
  (stored_ok s ->
   is_theme (data_theme (ScriptsTheme.session n s)) /\
   stored_ok (ScriptsTheme.session n s) /\
   is_theme (data_theme (Theme.session n s)) /\
   stored_ok (Theme.session n s)).
Proof.
  split; [|split; [|split]].
  - destruct (scripts_handle_is_theme s), (theme_handle_is_theme s). done.
  - intros Hs. rewrite scripts_session_step, theme_session_step by done.
    destruct (scripts_handle_is_theme (ScriptsTheme.session n s)).
    destruct (theme_handle_is_theme (Theme.session n s)). done.
  - split; [apply scripts_load_is_theme|].
    split; [apply theme_load_is_theme|].
    split; [apply scripts_load_stored | apply theme_load_stored].
  - intros Hs.
    destruct (scripts_session_ok n s Hs) as [? ?].
    destruct (theme_session_ok n s Hs) as [? ?].
    done.
Qed.

Lemma C4_two_valued_invariant_witness :
  let s := return_visit "blue" true in
  fresh_page s /\
  is_theme (data_theme (ScriptsTheme.session 3 s)) /\
  is_theme (stored_theme (ScriptsTheme.session 3 s)) /\
  is_theme (data_theme (Theme.session 3 s)) /\
  is_theme (stored_theme (Theme.session 3 s)).
Proof.
  assert (H : fresh_page (return_visit "blue" true))
    by (split; [by eexists | reflexivity]).
  exact (conj H
           (proj1 (proj2 (C4_two_valued_invariant (return_visit "blue" true) 2)) H)).
Defined.

Example load_then_click_from_unknown_theme :
  let s := return_visit "blue" true in
  data_theme (Theme.session 0 s) = Some "blue" /\
  stored_theme (Theme.session 0 s) = Some "blue" /\
  data_theme (Theme.session 1 s) = Some "dark" /\
  stored_theme (Theme.session 1 s) = Some "dark" /\
  data_theme (Theme.load (return_visit "" false)) = Some "light" /\
  stored_theme (Theme.load (return_visit "" false)) = Some "".
Proof. vm_compute. done. Qed.

(** ** Icon and attribute *)

Lemma scripts_load_in_sync (s : State) : icon_in_sync emoji_for (ScriptsTheme.load s).
Proof.
  exists (currentTheme s). split; [apply scripts_load_data_theme|].
  rewrite scripts_load_icon. rewrite scripts_main_final. simpl.
  by destruct (toggle s).
Qed.

Lemma theme_load_in_sync (s : State) : icon_in_sync svg_for (Theme.load s).
Proof.
  exists (currentTheme s). split; [apply theme_load_data_theme|].
  rewrite theme_load_icon. rewrite theme_main_final. simpl.
  by destruct (toggle s).
Qed.

Lemma scripts_handle_in_sync (s : State) :
  icon_in_sync emoji_for (ScriptsTheme.handle s).
Proof.
  exists (newTheme s). split; [apply scripts_handle_data_theme|].
  unfold ScriptsTheme.handle. rewrite scripts_listener_run. unfold icon, emoji_for.
  simpl. rewrite if_eqb_decide. by destruct (toggle s).
Qed.

Lemma theme_handle_in_sync (s : State) :
  icon_in_sync svg_for (Theme.handle s).
Proof.
  exists (newTheme s). split; [apply theme_handle_data_theme|].
  unfold Theme.handle. rewrite theme_listener_run. unfold icon, svg_for.
  simpl. rewrite if_eqb_decide. by destruct (toggle s).
Qed.

(** X4: from any page whatever, after the load and after each of any
    number of clicks, the toggle's icon agrees with the data-theme
    attribute: the sun when the attribute is "dark", the moon for every
    other value, in the markup of the script in use. *)
Theorem X4_icon_follows_attribute (s : State) (n : nat) :
  icon_in_sync emoji_for (ScriptsTheme.session n s) /\
  icon_in_sync svg_for (Theme.session n s).
Proof.
  unfold ScriptsTheme.session, Theme.session. split.
  - induction n as [|n IH]; simpl; [apply scripts_load_in_sync|].
    apply (dispatch_click_preserves (icon_in_sync emoji_for)); [|done].
    intros s' _. apply scripts_handle_in_sync.
  - induction n as [|n IH]; simpl; [apply theme_load_in_sync|].
    apply (dispatch_click_preserves (icon_in_sync svg_for)); [|done].
    intros s' _. apply theme_handle_in_sync.
Qed.

(** ** What a visit leaves alone *)

Lemma unchanged_elsewhere_refl (s : State) : unchanged_elsewhere s s.
Proof. by repeat split. Qed.

Lemma unchanged_elsewhere_trans (s1 s2 s3 : State) :
  unchanged_elsewhere s1 s2 -> unchanged_elsewhere s2 s3 ->
  unchanged_elsewhere s1 s3.
Proof.
  intros (Ha & Hs & Ho) (Ha' & Hs' & Ho'). repeat split.
  - intros k Hk. by rewrite Ha', Ha.
  - intros k Hk. by rewrite Hs', Hs.
  - by rewrite Ho', Ho.
Qed.

Lemma scripts_load_elsewhere (s : State) :
  unchanged_elsewhere s (ScriptsTheme.load s).
Proof.
  rewrite scripts_main_final. repeat split; simpl.
  intros k Hk. by rewrite lookup_insert_ne.
Qed.

Lemma theme_load_elsewhere (s : State) :
  unchanged_elsewhere s (Theme.load s).
Proof.
  rewrite theme_main_final. repeat split; simpl.
  intros k Hk. by rewrite lookup_insert_ne.
Qed.

Lemma scripts_handle_elsewhere (s : State) :
  unchanged_elsewhere s (ScriptsTheme.handle s).
Proof.
  unfold ScriptsTheme.handle. rewrite scripts_listener_run.
  repeat split; simpl; intros k Hk; by rewrite lookup_insert_ne.
Qed.

Lemma theme_handle_elsewhere (s : State) :
  unchanged_elsewhere s (Theme.handle s).
Proof.
  unfold Theme.handle. rewrite theme_listener_run.
  repeat split; simpl; intros k Hk; by rewrite lookup_insert_ne.
Qed.

(** X5: a whole visit, the load and any number of clicks, changes no
    attribute of the root element other than data-theme and no storage key
    other than theme, and leaves the media query's answer alone. *)
Theorem X5_visit_touches_only_theme (s : State) (n : nat) :
  unchanged_elsewhere s (ScriptsTheme.session n s) /\
  unchanged_elsewhere s (Theme.session n s).
Proof.
  unfold ScriptsTheme.session, Theme.session. split.
  - induction n as [|n IH]; simpl; [apply scripts_load_elsewhere|].
    apply (dispatch_click_preserves (unchanged_elsewhere s)); [|done].
    intros s' Hs'. eapply unchanged_elsewhere_trans; [exact Hs'|].
    apply scripts_handle_elsewhere.
  - induction n as [|n IH]; simpl; [apply theme_load_elsewhere|].
    apply (dispatch_click_preserves (unchanged_elsewhere s)); [|done].
    intros s' Hs'. eapply unchanged_elsewhere_trans; [exact Hs'|].
    apply theme_handle_elsewhere.
Qed.

(** ** The scripts share their storage *)

(** X6: the two scripts read and write the same key with the same values:
    a theme set by a click under one script is the theme the other script
    applies on the next page load, with its own markup of the matching
    icon, whatever the OS signal. *)
Theorem X6_theme_carries_across_scripts (s : State) (os_dark : bool)
    (attrs : gmap string string) (tog : option Element) :
  exists t,
    is_theme (Some t) /\
    data_theme (ScriptsTheme.handle s) = Some t /\
    data_theme (Theme.handle s) = Some t /\
    data_theme (Theme.load (reload (ScriptsTheme.handle s) os_dark attrs tog)) = Some t /\
    data_theme (ScriptsTheme.load (reload (Theme.handle s) os_dark attrs tog)) = Some t /\
    icon (Theme.load (reload (ScriptsTheme.handle s) os_dark attrs tog))
      = (fun _ => svg_for t) <$> tog /\
    icon (ScriptsTheme.load (reload (Theme.handle s) os_dark attrs tog))
      = (fun _ => emoji_for t) <$> tog.
Proof.
  exists (newTheme s).
  pose proof (newTheme_nonempty s) as Hne.
  assert (H1 : currentTheme (reload (ScriptsTheme.handle s) os_dark attrs tog)
               = newTheme s).
  { apply currentTheme_stored; [|done].
    by rewrite stored_theme_reload, scripts_handle_stored. }
  assert (H2 : currentTheme (reload (Theme.handle s) os_dark attrs tog)
               = newTheme s).
  { apply currentTheme_stored; [|done].
    by rewrite stored_theme_reload, theme_handle_stored. }
  rewrite scripts_handle_data_theme, theme_handle_data_theme.
  rewrite theme_load_data_theme, scripts_load_data_theme.
  rewrite theme_load_icon, scripts_load_icon.
  rewrite H1, H2.
  split; [apply newTheme_is_theme|]. done.
Qed.
